(** * RDP probes of [pkg/js/libs/rdp/rdp.go]

    A shallow embedding of the two probes of the [rdp] package, [isRDP] and
    [checkRDPAuth], of their exported entry points [IsRDP] and
    [CheckRDPAuth], and of the calls they make to the outside world: the
    dialer registry, the dialer, the fingerprintx decoders and the
    connection.  Every call that leaves the package is recorded, in order,
    in a log of events, so that statements such as "no dial attempt" or
    "closed exactly once" are statements about that log. *)

From Stdlib Require Import Ascii.
From stdpp Require Import base strings gmap pretty.

Local Open Scope Z_scope.

(** ** Go values *)

(** [error]: an interface value, [nil] or an error carrying its message. *)
Inductive error : Type :=
| nil
| Err (msg : string).

Global Instance error_eq_dec : EqDecision error.
Proof. solve_decision. Defined.

(** [err != nil] *)
Definition is_err (e : error) : bool :=
  match e with
  | nil => false
  | Err _ => true
  end.

(** [any]: the dynamic type and value held by an empty interface. *)
Inductive any : Type :=
| AnyNil
| AnyString (s : string)
| AnyInt (n : Z)
| AnyBool (b : bool)
| AnyOther (type_name repr : string).

Global Instance any_eq_dec : EqDecision any.
Proof. solve_decision. Defined.

(** [time.Duration] counts nanoseconds. *)
Definition Duration := Z.

Module time.
Definition Nanosecond : Duration := 1.
Definition Microsecond : Duration := 1000 * Nanosecond.
Definition Millisecond : Duration := 1000 * Microsecond.
Definition Second : Duration := 1000 * Millisecond.
End time.

(** [context.Context]: the chain built by the [context] package.  [Value]
    walks the chain from the innermost binding and compares keys with [==];
    it yields [nil] when no binding matches.  [Deadline] is the earliest
    deadline on the chain, counted from the moment of the call, if any. *)
Inductive Context : Type :=
| Background
| TODO
| WithValue (parent : Context) (key val : any)
| WithTimeout (parent : Context) (timeout : Duration).

Fixpoint Value (ctx : Context) (key : any) : any :=
  match ctx with
  | Background | TODO => AnyNil
  | WithValue parent k v => if decide (k = key) then v else Value parent key
  | WithTimeout parent _ => Value parent key
  end.

Fixpoint Deadline (ctx : Context) : option Duration :=
  match ctx with
  | Background | TODO => None
  | WithValue parent _ _ => Deadline parent
  | WithTimeout parent d =>
      match Deadline parent with
      | Some d' => Some (Z.min d d')
      | None => Some d
      end
  end.

(** What a panic carries: the run-time error of a failed type assertion
    [x.(T)], or a value raised outside this package. *)
Inductive PanicValue : Type :=
| TypeAssertionError (dynamic : any) (asserted : string)
| ForeignPanic (msg : string).

(** A Go call either returns or panics. *)
Inductive Result (A : Type) : Type :=
| Return (a : A)
| Panic (v : PanicValue).
Arguments Return {A} a.
Arguments Panic {A} v.

(** ** The package's response types *)

Module IsRDPResponse.
Record t : Type := mk { IsRDP : bool; OS : string }.
(** [IsRDPResponse{}] *)
Definition zero : t := mk false "".
End IsRDPResponse.

Module CheckRDPAuthResponse.
(** [PluginInfo] is a [*plugins.ServiceRDP]: [None] is the nil pointer. *)
Record t (ServiceRDP : Type) : Type :=
  mk { PluginInfo : option ServiceRDP; Auth : bool }.
Arguments mk {ServiceRDP} PluginInfo Auth.
Arguments PluginInfo {ServiceRDP} _.
Arguments Auth {ServiceRDP} _.
(** [CheckRDPAuthResponse{}] *)
Definition zero {ServiceRDP : Type} : t ServiceRDP := mk None false.
End CheckRDPAuthResponse.

(** ** The outside world *)

(** Handles on a [*fastdialer.Dialer] and on a [net.Conn]. *)
Definition DialerHandle := N.
Definition Conn := N.

(** [protocolstate.Dialers]; the probes read its [Fastdialer] field only. *)
Record Dialers : Type := { Fastdialer : DialerHandle }.

(** The calls that leave the package, as the log records them. *)
Inductive Event : Type :=
| EvDial (d : DialerHandle) (ctx : Context) (network address : string)
| EvDetectRDP (conn : Conn) (timeout : Duration)
| EvDetectRDPAuth (conn : Conn) (timeout : Duration)
| EvClose (conn : Conn).

Definition is_dial (e : Event) : bool :=
  match e with EvDial _ _ _ _ => true | _ => false end.

Definition is_detect (e : Event) : bool :=
  match e with EvDetectRDP _ _ | EvDetectRDPAuth _ _ => true | _ => false end.

Definition is_close_of (c : Conn) (e : Event) : bool :=
  match e with EvClose c' => bool_decide (c' = c) | _ => false end.

Fixpoint count (p : Event -> bool) (evs : list Event) : nat :=
  match evs with
  | [] => 0%nat
  | e :: evs' => ((if p e then 1 else 0) + count p evs')%nat
  end.

Module fmt.
(** [fmt.Sprintf("%s:%d", host, port)]: the host, a colon, and the port as
    a signed decimal, whatever its value. *)
Definition Sprintf_host_port (host : string) (port : Z) : string :=
  host +:+ ":" +:+ pretty port.

(** [fmt.Errorf("dialers not initialized for %s", executionId)] *)
Definition Errorf_dialers_not_initialized (executionId : string) : error :=
  Err ("dialers not initialized for " +:+ executionId).
End fmt.

(** [(runId, host, port)]: the arguments of a memoized probe.  The probe
    kind selects the store, see [World]. *)
Definition ProbeKey : Type := string * string * Z.

Section Model.

(** [plugins.ServiceRDP] belongs to fingerprintx; the probes only pass a
    pointer to it along. *)
Context {ServiceRDP : Type}.

(** The collaborators.  The registry is a lookup table; the dialer and the
    decoders answer as a function of everything that happened before, so
    that the same address may answer differently the second time. *)
Record Env : Type := {
  registry : gmap string Dialers;
  dial_oracle :
    list Event -> DialerHandle -> Context -> string -> string -> Conn * error;
  detect_oracle :
    list Event -> Conn -> Duration -> Result (string * bool * error);
  detect_auth_oracle :
    list Event -> Conn -> Duration ->
    Result (option ServiceRDP * bool * error);
}.

(** The mutable state: the log, and one memo store per probe kind. *)
Record World : Type := {
  events : list Event;
  memo_isRDP : gmap ProbeKey (IsRDPResponse.t * error);
  memo_checkRDPAuth : gmap ProbeKey (CheckRDPAuthResponse.t ServiceRDP * error);
}.

Definition log (e : Event) (w : World) : World :=
  {| events := events w ++ [e];
     memo_isRDP := memo_isRDP w;
     memo_checkRDPAuth := memo_checkRDPAuth w |}.

(** *** Go computations: state passing, with panics *)

Definition Go (A : Type) : Type := World -> Result A * World.

Definition ret {A} (a : A) : Go A := fun w => (Return a, w).

Definition panic {A} (v : PanicValue) : Go A := fun w => (Panic v, w).

Definition bind {A B} (m : Go A) (k : A -> Go B) : Go B :=
  fun w =>
    match m w with
    | (Return a, w') => k a w'
    | (Panic v, w') => (Panic v, w')
    end.

(** [defer f(); body]: [f] runs when [body] is left, by a return or by a
    panic; what [body] produced stands unless [f] itself panics. *)
Definition defer {A} (deferred : Go unit) (body : Go A) : Go A :=
  fun w =>
    let (r, w') := body w in
    match deferred w' with
    | (Return _, w'') => (r, w'')
    | (Panic v, w'') => (Panic v, w'')
    end.

Variable env : Env.

(** [protocolstate.GetDialersWithId]: a lookup, [None] for a nil result. *)
Definition GetDialersWithId (executionId : string) : option Dialers :=
  registry env !! executionId.

(** [d.Dial(ctx, network, address)] *)
Definition Dial (d : DialerHandle) (ctx : Context) (network address : string)
  : Go (Conn * error) :=
  fun w =>
    (Return (dial_oracle env (events w) d ctx network address),
     log (EvDial d ctx network address) w).

(** [rdp.DetectRDP(conn, timeout)] *)
Definition DetectRDP (conn : Conn) (timeout : Duration)
  : Go (string * bool * error) :=
  fun w =>
    (detect_oracle env (events w) conn timeout, log (EvDetectRDP conn timeout) w).

(** [rdp.DetectRDPAuth(conn, timeout)] *)
Definition DetectRDPAuth (conn : Conn) (timeout : Duration)
  : Go (option ServiceRDP * bool * error) :=
  fun w =>
    (detect_auth_oracle env (events w) conn timeout,
     log (EvDetectRDPAuth conn timeout) w).

(** [_ = conn.Close()]: the error is discarded. *)
Definition Close (conn : Conn) : Go unit :=
  fun w => (Return tt, log (EvClose conn) w).

(** *** The probes *)

Notation "'let*' p ':=' m 'in' k" := (bind m (fun p => k))
  (at level 10, p pattern, m at level 100, k at level 200, only parsing).

(** [func isRDP(executionId string, host string, port int)] *)
Definition isRDP (executionId host : string) (port : Z)
  : Go (IsRDPResponse.t * error) :=
  let resp := IsRDPResponse.zero in
  match GetDialersWithId executionId with
  | None =>
      ret (IsRDPResponse.zero, fmt.Errorf_dialers_not_initialized executionId)
  | Some dialer =>
      let timeout := 5 * time.Second in
      let* (conn, err) :=
        Dial (Fastdialer dialer) TODO "tcp" (fmt.Sprintf_host_port host port)
      in
      if is_err err then ret (resp, err) else
      defer (Close conn)
        (let* (server, isRDP, err) := DetectRDP conn timeout in
         if is_err err then ret (resp, err) else
         if negb isRDP then ret (resp, nil) else
         let resp := IsRDPResponse.mk true server in
         ret (resp, nil))
  end.

(** [func checkRDPAuth(executionId string, host string, port int)] *)
Definition checkRDPAuth (executionId host : string) (port : Z)
  : Go (CheckRDPAuthResponse.t ServiceRDP * error) :=
  let resp := CheckRDPAuthResponse.zero in
  match GetDialersWithId executionId with
  | None =>
      ret (CheckRDPAuthResponse.zero,
           fmt.Errorf_dialers_not_initialized executionId)
  | Some dialer =>
      let timeout := 5 * time.Second in
      let* (conn, err) :=
        Dial (Fastdialer dialer) TODO "tcp" (fmt.Sprintf_host_port host port)
      in
      if is_err err then ret (resp, err) else
      defer (Close conn)
        (let* (pluginInfo, auth, err) := DetectRDPAuth conn timeout in
         if is_err err then ret (resp, err) else
         if negb auth then ret (resp, nil) else
         let resp := CheckRDPAuthResponse.mk pluginInfo true in
         ret (resp, nil))
  end.

(** *** The memo layer *)

(** Modelled from the spec: [memoizedisRDP] and [memoizedcheckRDPAuth],
    the wrappers generated from the [@memo] marks, are not among the
    sources.  The spec (4.3) gives their contract for callers that come
    one after the other: the first caller for a key runs [computeFn]
    once and its outcome is stored; a later caller for the same key
    receives the stored outcome and [computeFn] is not run again; a
    failure is stored like a success.  The spec says nothing of a
    [computeFn] that panics: here the panic goes through and nothing is
    stored. *)
Definition memoize {A} (lookup : World -> option A)
    (store : A -> World -> World) (computeFn : Go A) : Go A :=
  fun w =>
    match lookup w with
    | Some outcome => (Return outcome, w)
    | None =>
        match computeFn w with
        | (Return outcome, w') => (Return outcome, store outcome w')
        | (Panic v, w') => (Panic v, w')
        end
    end.

(** Modelled from the spec: publishing an outcome of [isRDP] under its
    key. *)
Definition store_isRDP (key : ProbeKey) (o : IsRDPResponse.t * error)
    (w : World) : World :=
  {| events := events w;
     memo_isRDP := <[key := o]> (memo_isRDP w);
     memo_checkRDPAuth := memo_checkRDPAuth w |}.

(** Modelled from the spec: publishing an outcome of [checkRDPAuth] under
    its key. *)
Definition store_checkRDPAuth (key : ProbeKey)
    (o : CheckRDPAuthResponse.t ServiceRDP * error) (w : World) : World :=
  {| events := events w;
     memo_isRDP := memo_isRDP w;
     memo_checkRDPAuth := <[key := o]> (memo_checkRDPAuth w) |}.

(** Modelled from the spec: the wrapper of [isRDP], keyed by its
    arguments. *)
Definition memoizedisRDP (executionId host : string) (port : Z)
  : Go (IsRDPResponse.t * error) :=
  let key : ProbeKey := (executionId, host, port) in
  memoize (fun w => memo_isRDP w !! key) (store_isRDP key)
    (isRDP executionId host port).

(** Modelled from the spec: the wrapper of [checkRDPAuth], keyed by its
    arguments. *)
Definition memoizedcheckRDPAuth (executionId host : string) (port : Z)
  : Go (CheckRDPAuthResponse.t ServiceRDP * error) :=
  let key : ProbeKey := (executionId, host, port) in
  memoize (fun w => memo_checkRDPAuth w !! key) (store_checkRDPAuth key)
    (checkRDPAuth executionId host port).

(** *** The exported entry points *)

(** [func IsRDP(ctx context.Context, host string, port int)]: the type
    assertion [ctx.Value("executionId").(string)] has no [ok] form, so it
    panics when the value is not a string. *)
Definition IsRDP (ctx : Context) (host : string) (port : Z)
  : Go (IsRDPResponse.t * error) :=
  match Value ctx (AnyString "executionId") with
  | AnyString executionId => memoizedisRDP executionId host port
  | v => panic (TypeAssertionError v "string")
  end.

(** [func CheckRDPAuth(ctx context.Context, host string, port int)] *)
Definition CheckRDPAuth (ctx : Context) (host : string) (port : Z)
  : Go (CheckRDPAuthResponse.t ServiceRDP * error) :=
  match Value ctx (AnyString "executionId") with
  | AnyString executionId => memoizedcheckRDPAuth executionId host port
  | v => panic (TypeAssertionError v "string")
  end.

End Model.

Arguments Env : clear implicits.
Arguments World : clear implicits.
Arguments Go : clear implicits.


(** ** What a probe's steps are asked and answer *)

Section Steps.

Context {ServiceRDP : Type} (env : Env ServiceRDP).

(** The dial event of a probe of [host:port] through [dialer]. *)
Definition dial_event (dialer : Dialers) (host : string) (port : Z) : Event :=
  EvDial (Fastdialer dialer) TODO "tcp" (fmt.Sprintf_host_port host port).

(** What the dialer answers to that dial, made in world [w]. *)
Definition dial_answer (w : World ServiceRDP) (dialer : Dialers)
    (host : string) (port : Z) : Conn * error :=
  dial_oracle env (events w) (Fastdialer dialer) TODO "tcp"
    (fmt.Sprintf_host_port host port).

(** What the decoders answer on [conn], called right after that dial. *)
Definition presence_answer (w : World ServiceRDP) (dialer : Dialers)
    (host : string) (port : Z) (conn : Conn)
  : Result (string * bool * error) :=
  detect_oracle env (events w ++ [dial_event dialer host port]) conn
    (5 * time.Second).

Definition auth_answer (w : World ServiceRDP) (dialer : Dialers)
    (host : string) (port : Z) (conn : Conn)
  : Result (option ServiceRDP * bool * error) :=
  detect_auth_oracle env (events w ++ [dial_event dialer host port]) conn
    (5 * time.Second).

(** The world a probe leaves once it has dialed [conn] and called a
    decoder on it, which the event [decode] records. *)
Definition after_probe (decode : Event) (w : World ServiceRDP)
    (dialer : Dialers) (host : string) (port : Z) (conn : Conn)
  : World ServiceRDP :=
  log (EvClose conn) (log decode (log (dial_event dialer host port) w)).

(** The events logged on the way from world [w] to world [w']. *)
Definition new_events (w w' : World ServiceRDP) : list Event :=
  drop (length (events w)) (events w').

End Steps.

(** ** Scenarios *)

(** A service-info record for the scenarios. *)
Record ServiceInfo : Type := { cookie : string }.

(** One registered run, ["run-1"], whose dialer is handle 7, and constant
    answers from the dialer and the decoders. *)
Definition scenario (dial : Conn * error)
    (presence : Result (string * bool * error))
    (auth : Result (option ServiceInfo * bool * error)) : Env ServiceInfo :=
  {| registry := {[ "run-1" := {| Fastdialer := 7%N |} ]};
     dial_oracle := fun _ _ _ _ _ => dial;
     detect_oracle := fun _ _ _ => presence;
     detect_auth_oracle := fun _ _ _ => auth |}.

(** The scenarios of the spec (8): an RDP server that requires
    authentication. *)
Definition acme : Env ServiceInfo :=
  scenario (1%N, nil)
    (Return ("Windows Server 2019", true, nil))
    (Return (Some {| cookie := "MSTSHASH=abc" |}, true, nil)).

(** A listener that is not RDP, though the decoders hand back metadata. *)
Definition not_rdp : Env ServiceInfo :=
  scenario (1%N, nil)
    (Return ("Windows Server 2019", false, nil))
    (Return (Some {| cookie := "MSTSHASH=abc" |}, false, nil)).

(** A host that refuses the connection. *)
Definition refused : Env ServiceInfo :=
  scenario (0%N, Err "connection refused")
    (Return ("", false, nil)) (Return (None, false, nil)).

(** Decoders that time out, yet hand back a populated answer. *)
Definition decoder_timeout : Env ServiceInfo :=
  scenario (1%N, nil)
    (Return ("Windows Server 2019", true, Err "i/o timeout"))
    (Return (Some {| cookie := "MSTSHASH=abc" |}, true, Err "i/o timeout")).

(** Decoders that panic. *)
Definition decoder_panic : Env ServiceInfo :=
  scenario (1%N, nil)
    (Panic (ForeignPanic "index out of range"))
    (Panic (ForeignPanic "index out of range")).

(** A host that accepts the first connection only. *)
Definition flaky : Env ServiceInfo :=
  {| registry := {[ "run-1" := {| Fastdialer := 7%N |} ]};
     dial_oracle := fun history _ _ _ _ =>
       match count is_dial history with
       | O => (1%N, nil)
       | _ => (0%N, Err "connection refused")
       end;
     detect_oracle := fun _ _ _ => Return ("Windows Server 2019", true, nil);
     detect_auth_oracle := fun _ _ _ =>
       Return (Some {| cookie := "MSTSHASH=abc" |}, true, nil) |}.

(** A fresh run: nothing logged, nothing memoized. *)
Definition fresh : World ServiceInfo :=
  {| events := []; memo_isRDP := ∅; memo_checkRDPAuth := ∅ |}.


(** An RDP server that requires authentication, but for which the decoders
    find neither a label nor a record. *)
Definition unlabelled : Env ServiceInfo :=
  scenario (1%N, nil) (Return ("", true, nil)) (Return (None, true, nil)).

(** ** More vocabulary on logs and addresses *)

Definition is_close (e : Event) : bool :=
  match e with EvClose _ => true | _ => false end.

(** Whether a string holds a colon. *)
Fixpoint has_colon (s : string) : bool :=
  match s with
  | EmptyString => false
  | String c s' => bool_decide (c = ":"%char) || has_colon s'
  end.

(** The log a probe adds, given the registry's and the dialer's answers:
    nothing without a dialer, the dial alone when it fails, and otherwise
    the dial, one call of the decoder and one close. *)
Definition expected_log (decode : Conn -> Duration -> Event)
    (dialer : option Dialers) (answer : Dialers -> Conn * error)
    (host : string) (port : Z) : list Event :=
  match dialer with
  | None => []
  | Some d =>
      match answer d with
      | (_, Err _) => [dial_event d host port]
      | (conn, nil) =>
          [dial_event d host port; decode conn (5 * time.Second); EvClose conn]
      end
  end.

(** ** Callers of the memoized probes *)

(** A call that some caller of the run makes, to the memoized presence
    probe or to the memoized auth probe. *)
Inductive Call : Type :=
| CallPresence (executionId host : string) (port : Z)
| CallAuth (executionId host : string) (port : Z).

(** The world after a call, whether it returned or panicked. *)
Definition run_call {ServiceRDP : Type} (env : Env ServiceRDP) (c : Call)
    (w : World ServiceRDP) : World ServiceRDP :=
  match c with
  | CallPresence executionId host port =>
      (memoizedisRDP env executionId host port w).2
  | CallAuth executionId host port =>
      (memoizedcheckRDPAuth env executionId host port w).2
  end.

(** The world after a series of calls, made one after the other. *)
Definition run_calls {ServiceRDP : Type} (env : Env ServiceRDP)
    (calls : list Call) (w : World ServiceRDP) : World ServiceRDP :=
  fold_left (fun w c => run_call env c w) calls w.

(** ** Properties of the probes *)

Section Proofs.

Context {ServiceRDP : Type} (env : Env ServiceRDP).

Implicit Types (w : World ServiceRDP) (host executionId : string) (port : Z).

(** *** Running a probe, step by step *)

Ltac run :=
  unfold isRDP, checkRDPAuth, GetDialersWithId, bind, defer, ret,
    Dial, DetectRDP, DetectRDPAuth, Close,
    dial_answer, presence_answer, auth_answer, dial_event in *;
  cbn [fst snd events log is_err negb] in *.

Lemma isRDP_unregistered executionId host port w :
  registry env !! executionId = None ->
  isRDP env executionId host port w =
    (Return (IsRDPResponse.zero,
             fmt.Errorf_dialers_not_initialized executionId), w).
Proof. intros Hreg. run. now rewrite Hreg. Qed.

Lemma checkRDPAuth_unregistered executionId host port w :
  registry env !! executionId = None ->
  checkRDPAuth env executionId host port w =
    (Return (CheckRDPAuthResponse.zero,
             fmt.Errorf_dialers_not_initialized executionId), w).
Proof. intros Hreg. run. now rewrite Hreg. Qed.

Lemma isRDP_dial_failed executionId host port w dialer conn msg :
  registry env !! executionId = Some dialer ->
  dial_answer env w dialer host port = (conn, Err msg) ->
  isRDP env executionId host port w =
    (Return (IsRDPResponse.zero, Err msg),
     log (dial_event dialer host port) w).
Proof. intros Hreg Hdial. run. now rewrite Hreg, Hdial. Qed.

Lemma checkRDPAuth_dial_failed executionId host port w dialer conn msg :
  registry env !! executionId = Some dialer ->
  dial_answer env w dialer host port = (conn, Err msg) ->
  checkRDPAuth env executionId host port w =
    (Return (CheckRDPAuthResponse.zero, Err msg),
     log (dial_event dialer host port) w).
Proof. intros Hreg Hdial. run. now rewrite Hreg, Hdial. Qed.

Lemma isRDP_connected executionId host port w dialer conn :
  registry env !! executionId = Some dialer ->
  dial_answer env w dialer host port = (conn, nil) ->
  isRDP env executionId host port w =
    (match presence_answer env w dialer host port conn with
     | Panic v => Panic v
     | Return (_, _, Err msg) => Return (IsRDPResponse.zero, Err msg)
     | Return (_, false, nil) => Return (IsRDPResponse.zero, nil)
     | Return (server, true, nil) =>
         Return (IsRDPResponse.mk true server, nil)
     end,
     after_probe (EvDetectRDP conn (5 * time.Second))
       w dialer host port conn).
Proof.
  intros Hreg Hdial. unfold after_probe. run. rewrite Hreg, Hdial.
  cbn [is_err events log].
  destruct (detect_oracle _ _ _ _) as [[[server flag] [|msg]]|v];
    try destruct flag; reflexivity.
Qed.

Lemma checkRDPAuth_connected executionId host port w dialer conn :
  registry env !! executionId = Some dialer ->
  dial_answer env w dialer host port = (conn, nil) ->
  checkRDPAuth env executionId host port w =
    (match auth_answer env w dialer host port conn with
     | Panic v => Panic v
     | Return (_, _, Err msg) => Return (CheckRDPAuthResponse.zero, Err msg)
     | Return (_, false, nil) => Return (CheckRDPAuthResponse.zero, nil)
     | Return (pluginInfo, true, nil) =>
         Return (CheckRDPAuthResponse.mk pluginInfo true, nil)
     end,
     after_probe (EvDetectRDPAuth conn (5 * time.Second))
       w dialer host port conn).
Proof.
  intros Hreg Hdial. unfold after_probe. run. rewrite Hreg, Hdial.
  cbn [is_err events log].
  destruct (detect_auth_oracle _ _ _ _) as [[[info flag] [|msg]]|v];
    try destruct flag; reflexivity.
Qed.

Lemma events_after_probe decode w dialer host port conn :
  events (after_probe decode w dialer host port conn) =
    events w ++ [dial_event dialer host port; decode; EvClose conn].
Proof.
  unfold after_probe. cbn [events log]. now rewrite <- !app_assoc.
Qed.

Lemma new_events_app w w' evs :
  events w' = events w ++ evs -> new_events w w' = evs.
Proof. intros E. unfold new_events. rewrite E. apply drop_app_length. Qed.

Lemma new_events_refl w : new_events w w = [].
Proof. apply new_events_app. now rewrite app_nil_r. Qed.

Lemma count_close_self conn : is_close_of conn (EvClose conn) = true.
Proof. cbn. now apply bool_decide_eq_true. Qed.

Lemma isRDP_trace executionId host port w :
  exists evs,
    events (isRDP env executionId host port w).2 = events w ++ evs /\
    (count is_dial evs <= 1)%nat /\ (count is_detect evs <= 1)%nat.
Proof.
  destruct (registry env !! executionId) as [dialer|] eqn:Hreg.
  - destruct (dial_answer env w dialer host port) as [conn [|msg]] eqn:Hdial.
    + rewrite (isRDP_connected _ _ _ _ _ _ Hreg Hdial). cbn [snd].
      rewrite events_after_probe. eexists; split; [reflexivity|].
      cbn. lia.
    + rewrite (isRDP_dial_failed _ _ _ _ _ _ _ Hreg Hdial).
      exists [dial_event dialer host port]. cbn. split; [reflexivity|lia].
  - rewrite (isRDP_unregistered _ host port w Hreg).
    exists []. cbn. rewrite app_nil_r. split; [reflexivity|lia].
Qed.

(** *** The claims *)

(** C3.  When the registry holds no dialer for the run, both probes return
    the zero response together with the error "dialers not initialized for
    <run>", and leave the world as it was: no dial is attempted. *)
Theorem run_not_initialized executionId host port w :
  registry env !! executionId = None ->
  isRDP env executionId host port w =
    (Return (IsRDPResponse.mk false "",
             Err ("dialers not initialized for " +:+ executionId)), w) /\
  checkRDPAuth env executionId host port w =
    (Return (CheckRDPAuthResponse.mk None false,
             Err ("dialers not initialized for " +:+ executionId)), w) /\
  count is_dial (new_events w (isRDP env executionId host port w).2) = 0%nat /\
  count is_dial
    (new_events w (checkRDPAuth env executionId host port w).2) = 0%nat.
Proof.
  intros Hreg.
  rewrite (isRDP_unregistered _ host port w Hreg).
  rewrite (checkRDPAuth_unregistered _ host port w Hreg).
  cbn [snd]. rewrite new_events_refl. repeat split.
Qed.

(** C5.  Whatever a probe returns, the OS label is non-empty only when
    the IsRDP flag is set, and the service-info pointer is non-nil only
    when the Auth flag is set. *)
Theorem payload_only_when_flagged executionId host port w :
  (forall resp err w',
      isRDP env executionId host port w = (Return (resp, err), w') ->
      IsRDPResponse.OS resp <> "" -> IsRDPResponse.IsRDP resp = true) /\
  (forall resp err w',
      checkRDPAuth env executionId host port w = (Return (resp, err), w') ->
      CheckRDPAuthResponse.PluginInfo resp <> None ->
      CheckRDPAuthResponse.Auth resp = true).
Proof.
  split; intros resp err w' Hrun Hpayload;
    destruct (registry env !! executionId) as [dialer|] eqn:Hreg.
  - destruct (dial_answer env w dialer host port) as [conn [|msg]] eqn:Hdial.
    + rewrite (isRDP_connected _ _ _ _ _ _ Hreg Hdial) in Hrun.
      destruct (presence_answer _ _ _ _ _ _)
        as [[[server flag] [|msg]]|v]; try destruct flag;
        inversion Hrun; subst; cbn in *; congruence.
    + rewrite (isRDP_dial_failed _ _ _ _ _ _ _ Hreg Hdial) in Hrun.
      inversion Hrun; subst; cbn in *; congruence.
  - rewrite (isRDP_unregistered _ host port w Hreg) in Hrun.
    inversion Hrun; subst; cbn in *; congruence.
  - destruct (dial_answer env w dialer host port) as [conn [|msg]] eqn:Hdial.
    + rewrite (checkRDPAuth_connected _ _ _ _ _ _ Hreg Hdial) in Hrun.
      destruct (auth_answer _ _ _ _ _ _)
        as [[[info flag] [|msg]]|v]; try destruct flag;
        inversion Hrun; subst; cbn in *; congruence.
    + rewrite (checkRDPAuth_dial_failed _ _ _ _ _ _ _ Hreg Hdial) in Hrun.
      inversion Hrun; subst; cbn in *; congruence.
  - rewrite (checkRDPAuth_unregistered _ host port w Hreg) in Hrun.
    inversion Hrun; subst; cbn in *; congruence.
Qed.

(** C6.  On a connection that was dialed, a presence decoder that
    returns without error and reports not-RDP makes [isRDP] return
    exactly {IsRDP: false, OS: ""} and a nil error; an auth decoder that
    returns without error and reports no authentication makes
    [checkRDPAuth] return {PluginInfo: nil, Auth: false} and a nil error.
    The label and the record the decoder handed back are dropped. *)
Theorem negative_is_not_an_error executionId host port w dialer conn :
  registry env !! executionId = Some dialer ->
  dial_answer env w dialer host port = (conn, nil) ->
  (forall server,
      presence_answer env w dialer host port conn =
        Return (server, false, nil) ->
      (isRDP env executionId host port w).1 =
        Return (IsRDPResponse.mk false "", nil)) /\
  (forall pluginInfo,
      auth_answer env w dialer host port conn =
        Return (pluginInfo, false, nil) ->
      (checkRDPAuth env executionId host port w).1 =
        Return (CheckRDPAuthResponse.mk None false, nil)).
Proof.
  intros Hreg Hdial. split.
  - intros server Hdec.
    rewrite (isRDP_connected _ _ _ _ _ _ Hreg Hdial), Hdec. reflexivity.
  - intros pluginInfo Hdec.
    rewrite (checkRDPAuth_connected _ _ _ _ _ _ Hreg Hdial), Hdec.
    reflexivity.
Qed.

(** C7.  A dial error and a decoder error reach the caller as they are,
    next to the zero response, whatever else the failing call handed
    back.  Nothing is tried again: after a dial error the log holds that
    one dial and no decoder call; after a decoder error it holds one
    dial and one decoder call. *)
Theorem failure_propagates_unchanged executionId host port w dialer :
  registry env !! executionId = Some dialer ->
  (forall conn msg,
      dial_answer env w dialer host port = (conn, Err msg) ->
      isRDP env executionId host port w =
        (Return (IsRDPResponse.zero, Err msg),
         log (dial_event dialer host port) w) /\
      checkRDPAuth env executionId host port w =
        (Return (CheckRDPAuthResponse.zero, Err msg),
         log (dial_event dialer host port) w)) /\
  (forall conn server flag msg,
      dial_answer env w dialer host port = (conn, nil) ->
      presence_answer env w dialer host port conn =
        Return (server, flag, Err msg) ->
      (isRDP env executionId host port w).1 =
        Return (IsRDPResponse.zero, Err msg) /\
      new_events w (isRDP env executionId host port w).2 =
        [dial_event dialer host port;
         EvDetectRDP conn (5 * time.Second); EvClose conn]) /\
  (forall conn pluginInfo flag msg,
      dial_answer env w dialer host port = (conn, nil) ->
      auth_answer env w dialer host port conn =
        Return (pluginInfo, flag, Err msg) ->
      (checkRDPAuth env executionId host port w).1 =
        Return (CheckRDPAuthResponse.zero, Err msg) /\
      new_events w (checkRDPAuth env executionId host port w).2 =
        [dial_event dialer host port;
         EvDetectRDPAuth conn (5 * time.Second); EvClose conn]).
Proof.
  intros Hreg. split; [|split].
  - intros conn msg Hdial. split.
    + exact (isRDP_dial_failed _ _ _ _ _ _ _ Hreg Hdial).
    + exact (checkRDPAuth_dial_failed _ _ _ _ _ _ _ Hreg Hdial).
  - intros conn server flag msg Hdial Hdec.
    rewrite (isRDP_connected _ _ _ _ _ _ Hreg Hdial), Hdec. cbn [fst snd].
    split; [now destruct flag|].
    apply new_events_app, events_after_probe.
  - intros conn pluginInfo flag msg Hdial Hdec.
    rewrite (checkRDPAuth_connected _ _ _ _ _ _ Hreg Hdial), Hdec.
    cbn [fst snd]. split; [now destruct flag|].
    apply new_events_app, events_after_probe.
Qed.

(** C8.  When the dial succeeds with connection [conn], a probe adds to
    the log exactly its dial, one decoder call on [conn] and one close of
    [conn], in that order, whether the decoder returns a result, returns
    an error or panics.  So [conn] is closed exactly once, the close is
    the last thing the probe does, and the connection the decoder works
    on is the one this very probe dialed. *)
Theorem stream_closed_exactly_once executionId host port w dialer conn :
  registry env !! executionId = Some dialer ->
  dial_answer env w dialer host port = (conn, nil) ->
  let w1 := (isRDP env executionId host port w).2 in
  let w2 := (checkRDPAuth env executionId host port w).2 in
  events w1 =
    events w ++ [dial_event dialer host port;
                 EvDetectRDP conn (5 * time.Second); EvClose conn] /\
  events w2 =
    events w ++ [dial_event dialer host port;
                 EvDetectRDPAuth conn (5 * time.Second); EvClose conn] /\
  count (is_close_of conn) (new_events w w1) = 1%nat /\
  count (is_close_of conn) (new_events w w2) = 1%nat /\
  count is_dial (new_events w w1) = 1%nat /\
  count is_dial (new_events w w2) = 1%nat /\
  last (events w1) = Some (EvClose conn) /\
  last (events w2) = Some (EvClose conn).
Proof.
  intros Hreg Hdial w1 w2.
  assert (E1 : events w1 =
    events w ++ [dial_event dialer host port;
                 EvDetectRDP conn (5 * time.Second); EvClose conn]).
  { subst w1. rewrite (isRDP_connected _ _ _ _ _ _ Hreg Hdial).
    apply events_after_probe. }
  assert (E2 : events w2 =
    events w ++ [dial_event dialer host port;
                 EvDetectRDPAuth conn (5 * time.Second); EvClose conn]).
  { subst w2. rewrite (checkRDPAuth_connected _ _ _ _ _ _ Hreg Hdial).
    apply events_after_probe. }
  rewrite (new_events_app _ _ _ E1), (new_events_app _ _ _ E2).
  rewrite E1, E2.
  cbn [count is_dial dial_event is_close_of].
  rewrite !bool_decide_eq_true_2 by reflexivity.
  repeat split; rewrite ?last_app; reflexivity.
Qed.

Lemma isRDP_keeps_memo executionId host port w :
  memo_isRDP (isRDP env executionId host port w).2 = memo_isRDP w /\
  memo_checkRDPAuth (isRDP env executionId host port w).2
    = memo_checkRDPAuth w.
Proof.
  destruct (registry env !! executionId) as [dialer|] eqn:Hreg.
  - destruct (dial_answer env w dialer host port) as [conn [|msg]] eqn:Hdial.
    + rewrite (isRDP_connected _ _ _ _ _ _ Hreg Hdial). now split.
    + rewrite (isRDP_dial_failed _ _ _ _ _ _ _ Hreg Hdial). now split.
  - rewrite (isRDP_unregistered _ host port w Hreg). now split.
Qed.

Lemma checkRDPAuth_keeps_memo executionId host port w :
  memo_isRDP (checkRDPAuth env executionId host port w).2 = memo_isRDP w /\
  memo_checkRDPAuth (checkRDPAuth env executionId host port w).2
    = memo_checkRDPAuth w.
Proof.
  destruct (registry env !! executionId) as [dialer|] eqn:Hreg.
  - destruct (dial_answer env w dialer host port) as [conn [|msg]] eqn:Hdial.
    + rewrite (checkRDPAuth_connected _ _ _ _ _ _ Hreg Hdial). now split.
    + rewrite (checkRDPAuth_dial_failed _ _ _ _ _ _ _ Hreg Hdial). now split.
  - rewrite (checkRDPAuth_unregistered _ host port w Hreg). now split.
Qed.

(** A stored outcome answers the call, and the world stays as it is. *)
Lemma memoizedisRDP_hit executionId host port w outcome :
  memo_isRDP w !! ((executionId, host, port) : ProbeKey) = Some outcome ->
  memoizedisRDP env executionId host port w = (Return outcome, w).
Proof. intros Hhit. unfold memoizedisRDP, memoize. now rewrite Hhit. Qed.

(** A call that returns leaves its outcome in the store. *)
Lemma memoizedisRDP_stores executionId host port w outcome w1 :
  memoizedisRDP env executionId host port w = (Return outcome, w1) ->
  memo_isRDP w1 !! ((executionId, host, port) : ProbeKey) = Some outcome.
Proof.
  unfold memoizedisRDP, memoize.
  destruct (memo_isRDP w !! _) as [o|] eqn:Hmemo.
  - now intros [= -> <-].
  - destruct (isRDP env executionId host port w) as [[o|v] w'];
      [|discriminate].
    intros [= -> <-]. cbn [store_isRDP memo_isRDP]. apply lookup_insert_eq.
Qed.

(** No call, to either probe and with any arguments, removes or replaces
    an outcome that is stored. *)
Lemma run_call_keeps_outcome (key : ProbeKey) outcome c w :
  memo_isRDP w !! key = Some outcome ->
  memo_isRDP (run_call env c w) !! key = Some outcome.
Proof.
  intros Hkey. destruct c as [id' host' port'|id' host' port']; cbn [run_call].
  - unfold memoizedisRDP, memoize.
    destruct (memo_isRDP w !! ((id', host', port') : ProbeKey))
      as [o|] eqn:Hmemo; [exact Hkey|].
    pose proof (proj1 (isRDP_keeps_memo id' host' port' w)) as Hkeep.
    destruct (isRDP env id' host' port' w) as [[o|v] w']; cbn [snd] in *.
    + cbn [store_isRDP memo_isRDP]. rewrite Hkeep.
      rewrite lookup_insert_ne; [exact Hkey|].
      intros <-. congruence.
    + now rewrite Hkeep.
  - unfold memoizedcheckRDPAuth, memoize.
    destruct (memo_checkRDPAuth w !! _) as [o|]; [exact Hkey|].
    pose proof (proj1 (checkRDPAuth_keeps_memo id' host' port' w)) as Hkeep.
    destruct (checkRDPAuth env id' host' port' w) as [[o|v] w'];
      cbn [snd store_checkRDPAuth memo_isRDP] in *; now rewrite Hkeep.
Qed.

Lemma run_calls_keep_outcome (key : ProbeKey) outcome calls w :
  memo_isRDP w !! key = Some outcome ->
  memo_isRDP (run_calls env calls w) !! key = Some outcome.
Proof.
  revert w. induction calls as [|c calls IH]; intros w Hkey; [exact Hkey|].
  cbn. apply IH. now apply run_call_keeps_outcome.
Qed.

(** C1, on the memo layer as the spec describes it.  Once a call of the
    presence probe has returned, every later call with the same arguments
    in the run returns the same outcome, success or failure alike, and
    leaves the world untouched: it dials nothing.  This holds for the call
    that comes next, and for one that comes after any series of calls, by
    any callers, to either probe and with any arguments.  The first call
    itself dials at most once and calls the decoder at most once, so all
    the calls with these arguments together make at most one network
    probe. *)
Theorem presence_probe_memoized executionId host port w outcome w1 :
  memoizedisRDP env executionId host port w = (Return outcome, w1) ->
  (forall calls,
      let w2 := run_calls env calls w1 in
      memoizedisRDP env executionId host port w2 = (Return outcome, w2)) /\
  memoizedisRDP env executionId host port w1 = (Return outcome, w1) /\
  events w1 = events w ++ new_events w w1 /\
  (count is_dial (new_events w w1) <= 1)%nat /\
  (count is_detect (new_events w w1) <= 1)%nat.
Proof.
  intros Hfirst.
  pose proof (memoizedisRDP_stores _ _ _ _ _ _ Hfirst) as Hstored.
  split; [|split].
  - intros calls w2. apply memoizedisRDP_hit.
    now apply run_calls_keep_outcome.
  - now apply memoizedisRDP_hit.
  - revert Hfirst. unfold memoizedisRDP, memoize.
    destruct (memo_isRDP w !! _) as [o|] eqn:Hmemo.
    + intros [= -> ->]. rewrite new_events_refl, app_nil_r.
      cbn. repeat split; lia.
    + destruct (isRDP_trace executionId host port w) as (evs & Hev & Hd & Hp).
      destruct (isRDP env executionId host port w) as [[o|v] w'] eqn:Hrun;
        [|discriminate].
      intros [= -> <-]. cbn [snd] in Hev.
      rewrite (new_events_app w (store_isRDP _ outcome w') evs Hev).
      repeat split; assumption.
Qed.

(** C4, as the code has it.  With a dialer registered for the run, the
    first thing a probe does is to dial, through that dialer's
    Fastdialer, the network "tcp" and the address host:port, under
    [context.TODO()], a context without deadline: the dial is not bounded
    by the timeout.  When the dial fails, the probe makes no other call.
    When it succeeds, the probe calls its own decoder, once, on the
    connection that the dial returned and with the timeout of five
    seconds, and then closes that connection; the timeout goes to the
    decoder and to nothing else. *)
Theorem dial_then_timed_decoder executionId host port w dialer :
  registry env !! executionId = Some dialer ->
  let dial :=
    EvDial (Fastdialer dialer) TODO "tcp" (host +:+ ":" +:+ pretty port) in
  Deadline TODO = None /\
  events (isRDP env executionId host port w).2 =
    events w ++ dial ::
      match dial_answer env w dialer host port with
      | (conn, nil) => [EvDetectRDP conn 5000000000; EvClose conn]
      | (_, Err _) => []
      end /\
  events (checkRDPAuth env executionId host port w).2 =
    events w ++ dial ::
      match dial_answer env w dialer host port with
      | (conn, nil) => [EvDetectRDPAuth conn 5000000000; EvClose conn]
      | (_, Err _) => []
      end.
Proof.
  intros Hreg dial. subst dial.
  split; [reflexivity|].
  destruct (dial_answer env w dialer host port) as [conn [|msg]] eqn:Hdial.
  - rewrite (isRDP_connected _ _ _ _ _ _ Hreg Hdial).
    rewrite (checkRDPAuth_connected _ _ _ _ _ _ Hreg Hdial). cbn [snd].
    rewrite !events_after_probe. split; reflexivity.
  - rewrite (isRDP_dial_failed _ _ _ _ _ _ _ Hreg Hdial).
    rewrite (checkRDPAuth_dial_failed _ _ _ _ _ _ _ Hreg Hdial).
    split; reflexivity.
Qed.

(** C9.  The port is not looked at before the dial: for every integer
    port, in range or not, a probe of a registered run starts by dialing
    the address made of the host, a colon and the port in decimal, and
    two different ports give two different addresses.  If that dial
    fails, its error is what the probe returns. *)
Theorem port_is_not_validated executionId host port w dialer :
  registry env !! executionId = Some dialer ->
  let dial :=
    EvDial (Fastdialer dialer) TODO "tcp" (host +:+ ":" +:+ pretty port) in
  head (new_events w (isRDP env executionId host port w).2) = Some dial /\
  head (new_events w (checkRDPAuth env executionId host port w).2)
    = Some dial /\
  (forall port',
      fmt.Sprintf_host_port host port = fmt.Sprintf_host_port host port' ->
      port = port') /\
  (forall conn msg,
      dial_answer env w dialer host port = (conn, Err msg) ->
      (isRDP env executionId host port w).1 =
        Return (IsRDPResponse.zero, Err msg) /\
      (checkRDPAuth env executionId host port w).1 =
        Return (CheckRDPAuthResponse.zero, Err msg)).
Proof.
  intros Hreg dial. subst dial. repeat split.
  - destruct (dial_answer env w dialer host port) as [conn [|msg]] eqn:Hdial.
    + rewrite (isRDP_connected _ _ _ _ _ _ Hreg Hdial). cbn [snd].
      now rewrite (new_events_app _ _ _ (events_after_probe _ _ _ _ _ _)).
    + rewrite (isRDP_dial_failed _ _ _ _ _ _ _ Hreg Hdial). cbn [snd].
      unfold new_events. cbn [events log]. now rewrite drop_app_length.
  - destruct (dial_answer env w dialer host port) as [conn [|msg]] eqn:Hdial.
    + rewrite (checkRDPAuth_connected _ _ _ _ _ _ Hreg Hdial). cbn [snd].
      now rewrite (new_events_app _ _ _ (events_after_probe _ _ _ _ _ _)).
    + rewrite (checkRDPAuth_dial_failed _ _ _ _ _ _ _ Hreg Hdial).
      cbn [snd]. unfold new_events. cbn [events log].
      now rewrite drop_app_length.
  - unfold fmt.Sprintf_host_port. intros port' Heq.
    apply (inj (String.app host)) in Heq.
    apply (inj (String.app ":")) in Heq.
    now apply (inj pretty) in Heq.
  - now rewrite (isRDP_dial_failed _ _ _ _ _ _ _ Hreg H).
  - now rewrite (checkRDPAuth_dial_failed _ _ _ _ _ _ _ Hreg H).
Qed.

(** C10.  The entry points read the run identity with an unchecked type
    assertion.  When the context binds "executionId" to a string, that
    string, as it is, is the run identity given to the memoized probe.
    When it binds it to anything else, or not at all, the call panics
    with the run-time error of the assertion: it returns no error value,
    and touches nothing. *)
Theorem run_identity_from_context ctx host port w :
  (forall executionId,
      Value ctx (AnyString "executionId") = AnyString executionId ->
      IsRDP env ctx host port w = memoizedisRDP env executionId host port w /\
      CheckRDPAuth env ctx host port w =
        memoizedcheckRDPAuth env executionId host port w) /\
  ((forall executionId,
       Value ctx (AnyString "executionId") <> AnyString executionId) ->
   IsRDP env ctx host port w =
     (Panic (TypeAssertionError (Value ctx (AnyString "executionId"))
               "string"), w) /\
   CheckRDPAuth env ctx host port w =
     (Panic (TypeAssertionError (Value ctx (AnyString "executionId"))
               "string"), w)).
Proof.
  unfold IsRDP, CheckRDPAuth, panic. split.
  - intros executionId ->. split; reflexivity.
  - intros Hnot.
    destruct (Value ctx (AnyString "executionId")) as [|s| | |];
      try (split; reflexivity).
    now destruct (Hnot s).
Qed.

End Proofs.

(** ** The claims on the scenarios *)

(** C1 on two runs.  [flaky] accepts one connection only: after probes of
    port 3390 and of the auth kind, which both dial and are refused, the
    presence probe of port 3389 still answers as the first time, and dials
    nothing.  [refused] fails the dial: the failure is what later calls
    answer, without a second dial. *)
Lemma presence_probe_memoized_witness :
  let found := (Return (IsRDPResponse.mk true "Windows Server 2019", nil)) in
  let failed := (Return (IsRDPResponse.zero, Err "connection refused")) in
  let others :=
    [CallPresence "run-1" "acme.test" 3390; CallAuth "run-1" "acme.test" 3389] in
  let w1 := (memoizedisRDP flaky "run-1" "acme.test" 3389 fresh).2 in
  let w2 := run_calls flaky others w1 in
  let w3 := (memoizedisRDP refused "run-1" "acme.test" 3389 fresh).2 in
  (memoizedisRDP flaky "run-1" "acme.test" 3389 fresh = (found, w1) /\
   count is_dial (events w2) = 3%nat /\
   memoizedisRDP flaky "run-1" "acme.test" 3389 w2 = (found, w2) /\
   memoizedisRDP flaky "run-1" "acme.test" 3389 w1 = (found, w1) /\
   events w1 = events fresh ++ new_events fresh w1 /\
   (count is_dial (new_events fresh w1) <= 1)%nat /\
   (count is_detect (new_events fresh w1) <= 1)%nat) /\
  (memoizedisRDP refused "run-1" "acme.test" 3389 fresh = (failed, w3) /\
   memoizedisRDP refused "run-1" "acme.test" 3389 (run_calls refused others w3)
     = (failed, run_calls refused others w3) /\
   memoizedisRDP refused "run-1" "acme.test" 3389 w3 = (failed, w3)).
Proof.
  intros found failed others w1 w2 w3.
  assert (H1 : memoizedisRDP flaky "run-1" "acme.test" 3389 fresh = (found, w1))
    by (vm_compute; reflexivity).
  assert (H2 : memoizedisRDP refused "run-1" "acme.test" 3389 fresh
               = (failed, w3))
    by (vm_compute; reflexivity).
  destruct (presence_probe_memoized flaky "run-1" "acme.test" 3389 fresh _ w1 H1)
    as (Hlater & Hnext & Hrest).
  destruct (presence_probe_memoized refused "run-1" "acme.test" 3389 fresh _
              w3 H2)
    as (Hlater' & Hnext' & _).
  split.
  - split; [exact H1|]. split; [vm_compute; reflexivity|].
    split; [exact (Hlater others)|]. split; [exact Hnext|exact Hrest].
  - split; [exact H2|]. split; [exact (Hlater' others)|exact Hnext'].
Defined.

(** C3 on a run that was never registered. *)
Lemma run_not_initialized_witness :
  registry acme !! "run-2" = None /\
  isRDP acme "run-2" "acme.test" 3389 fresh =
    (Return (IsRDPResponse.mk false "",
             Err "dialers not initialized for run-2"), fresh) /\
  checkRDPAuth acme "run-2" "acme.test" 3389 fresh =
    (Return (CheckRDPAuthResponse.mk None false,
             Err "dialers not initialized for run-2"), fresh).
Proof.
  assert (H : registry acme !! "run-2" = None) by (vm_compute; reflexivity).
  split; [exact H|].
  destruct (run_not_initialized acme "run-2" "acme.test" 3389 fresh H)
    as (Hp & Ha & _).
  split; [exact Hp|exact Ha].
Defined.

(** The dial of C4 on the scenario of the spec: the context of the dial
    has no deadline, so its deadline is not the timeout. *)
Lemma dial_deadline_counterexample :
  ~ (forall d ctx network address,
        EvDial d ctx network address
          ∈ new_events fresh (isRDP acme "run-1" "acme.test" 3389 fresh).2 ->
        Deadline ctx = Some (5 * time.Second)).
Proof.
  intros H.
  specialize (H 7%N TODO "tcp" "acme.test:3389").
  assert (Hin : EvDial 7%N TODO "tcp" "acme.test:3389"
                  ∈ new_events fresh
                      (isRDP acme "run-1" "acme.test" 3389 fresh).2)
    by (vm_compute; left).
  specialize (H Hin). discriminate H.
Qed.

(** C4, as the code has it, on the scenario of the spec. *)
Lemma dial_then_timed_decoder_witness :
  registry acme !! "run-1" = Some {| Fastdialer := 7%N |} /\
  Deadline TODO = None /\
  events (isRDP acme "run-1" "acme.test" 3389 fresh).2 =
    [EvDial 7%N TODO "tcp" "acme.test:3389";
     EvDetectRDP 1%N 5000000000; EvClose 1%N] /\
  events (checkRDPAuth acme "run-1" "acme.test" 3389 fresh).2 =
    [EvDial 7%N TODO "tcp" "acme.test:3389";
     EvDetectRDPAuth 1%N 5000000000; EvClose 1%N].
Proof.
  assert (H : registry acme !! "run-1" = Some {| Fastdialer := 7%N |})
    by (vm_compute; reflexivity).
  split; [exact H|].
  exact (dial_then_timed_decoder acme "run-1" "acme.test" 3389 fresh _ H).
Defined.

(** C5 on the scenarios of the spec. *)
Lemma payload_only_when_flagged_witness :
  let resp := IsRDPResponse.mk true "Windows Server 2019" in
  let resp' :=
    CheckRDPAuthResponse.mk (Some {| cookie := "MSTSHASH=abc" |}) true in
  ((isRDP acme "run-1" "acme.test" 3389 fresh).1 = Return (resp, nil) /\
   IsRDPResponse.OS resp <> "" /\ IsRDPResponse.IsRDP resp = true) /\
  ((checkRDPAuth acme "run-1" "acme.test" 3389 fresh).1 = Return (resp', nil) /\
   CheckRDPAuthResponse.PluginInfo resp' <> None /\
   CheckRDPAuthResponse.Auth resp' = true).
Proof.
  intros resp resp'.
  pose proof (payload_only_when_flagged acme "run-1" "acme.test" 3389 fresh)
    as [Hp Ha].
  assert (Hos : IsRDPResponse.OS resp <> "") by (cbn; discriminate).
  assert (Hinfo : CheckRDPAuthResponse.PluginInfo resp' <> None)
    by (cbn; discriminate).
  split.
  - split; [vm_compute; reflexivity|]. split; [exact Hos|].
    refine (Hp resp nil _ _ Hos). vm_compute; reflexivity.
  - split; [vm_compute; reflexivity|]. split; [exact Hinfo|].
    refine (Ha resp' nil _ _ Hinfo). vm_compute; reflexivity.
Defined.

(** C6 on a listener that is not RDP. *)
Lemma negative_is_not_an_error_witness :
  let dialer := {| Fastdialer := 7%N |} in
  registry not_rdp !! "run-1" = Some dialer /\
  dial_answer not_rdp fresh dialer "acme.test" 3389 = (1%N, nil) /\
  presence_answer not_rdp fresh dialer "acme.test" 3389 1%N =
    Return ("Windows Server 2019", false, nil) /\
  auth_answer not_rdp fresh dialer "acme.test" 3389 1%N =
    Return (Some {| cookie := "MSTSHASH=abc" |}, false, nil) /\
  (isRDP not_rdp "run-1" "acme.test" 3389 fresh).1 =
    Return (IsRDPResponse.mk false "", nil) /\
  (checkRDPAuth not_rdp "run-1" "acme.test" 3389 fresh).1 =
    Return (CheckRDPAuthResponse.mk None false, nil).
Proof.
  intros dialer.
  assert (Hreg : registry not_rdp !! "run-1" = Some dialer)
    by (vm_compute; reflexivity).
  assert (Hdial : dial_answer not_rdp fresh dialer "acme.test" 3389 = (1%N, nil))
    by reflexivity.
  destruct (negative_is_not_an_error not_rdp "run-1" "acme.test" 3389 fresh
              dialer 1%N Hreg Hdial) as [Hp Ha].
  split; [exact Hreg|]. split; [exact Hdial|].
  split; [reflexivity|]. split; [reflexivity|]. split.
  - exact (Hp "Windows Server 2019" eq_refl).
  - exact (Ha (Some {| cookie := "MSTSHASH=abc" |}) eq_refl).
Defined.

(** C7 on a refused connection and on decoders that time out while handing
    back a populated answer. *)
Lemma failure_propagates_unchanged_witness :
  let dialer := {| Fastdialer := 7%N |} in
  (registry refused !! "run-1" = Some dialer /\
   dial_answer refused fresh dialer "acme.test" 3389 =
     (0%N, Err "connection refused") /\
   isRDP refused "run-1" "acme.test" 3389 fresh =
     (Return (IsRDPResponse.zero, Err "connection refused"),
      log (dial_event dialer "acme.test" 3389) fresh) /\
   checkRDPAuth refused "run-1" "acme.test" 3389 fresh =
     (Return (CheckRDPAuthResponse.zero, Err "connection refused"),
      log (dial_event dialer "acme.test" 3389) fresh)) /\
  (registry decoder_timeout !! "run-1" = Some dialer /\
   dial_answer decoder_timeout fresh dialer "acme.test" 3389 = (1%N, nil) /\
   presence_answer decoder_timeout fresh dialer "acme.test" 3389 1%N =
     Return ("Windows Server 2019", true, Err "i/o timeout") /\
   (isRDP decoder_timeout "run-1" "acme.test" 3389 fresh).1 =
     Return (IsRDPResponse.zero, Err "i/o timeout") /\
   new_events fresh (isRDP decoder_timeout "run-1" "acme.test" 3389 fresh).2 =
     [dial_event dialer "acme.test" 3389;
      EvDetectRDP 1%N (5 * time.Second); EvClose 1%N]).
Proof.
  intros dialer.
  assert (Hreg : registry refused !! "run-1" = Some dialer)
    by (vm_compute; reflexivity).
  assert (Hreg' : registry decoder_timeout !! "run-1" = Some dialer)
    by (vm_compute; reflexivity).
  split.
  - split; [exact Hreg|]. split; [reflexivity|].
    destruct (failure_propagates_unchanged refused "run-1" "acme.test" 3389
                fresh dialer Hreg) as (Hdial & _ & _).
    exact (Hdial 0%N "connection refused" eq_refl).
  - split; [exact Hreg'|]. split; [reflexivity|]. split; [reflexivity|].
    destruct (failure_propagates_unchanged decoder_timeout "run-1" "acme.test"
                3389 fresh dialer Hreg') as (_ & Hdec & _).
    exact (Hdec 1%N "Windows Server 2019" true "i/o timeout" eq_refl eq_refl).
Defined.

(** C8 on decoders that panic: the connection is closed all the same. *)
Lemma stream_closed_exactly_once_witness :
  let dialer := {| Fastdialer := 7%N |} in
  let w1 := (isRDP decoder_panic "run-1" "acme.test" 3389 fresh).2 in
  let w2 := (checkRDPAuth decoder_panic "run-1" "acme.test" 3389 fresh).2 in
  registry decoder_panic !! "run-1" = Some dialer /\
  dial_answer decoder_panic fresh dialer "acme.test" 3389 = (1%N, nil) /\
  (isRDP decoder_panic "run-1" "acme.test" 3389 fresh).1 =
    Panic (ForeignPanic "index out of range") /\
  events w1 =
    events fresh ++ [dial_event dialer "acme.test" 3389;
                     EvDetectRDP 1%N (5 * time.Second); EvClose 1%N] /\
  events w2 =
    events fresh ++ [dial_event dialer "acme.test" 3389;
                     EvDetectRDPAuth 1%N (5 * time.Second); EvClose 1%N] /\
  count (is_close_of 1%N) (new_events fresh w1) = 1%nat /\
  count (is_close_of 1%N) (new_events fresh w2) = 1%nat /\
  count is_dial (new_events fresh w1) = 1%nat /\
  count is_dial (new_events fresh w2) = 1%nat /\
  last (events w1) = Some (EvClose 1%N) /\
  last (events w2) = Some (EvClose 1%N).
Proof.
  intros dialer w1 w2.
  assert (Hreg : registry decoder_panic !! "run-1" = Some dialer)
    by (vm_compute; reflexivity).
  split; [exact Hreg|]. split; [reflexivity|]. split; [reflexivity|].
  exact (stream_closed_exactly_once decoder_panic "run-1" "acme.test" 3389
           fresh dialer 1%N Hreg eq_refl).
Defined.

(** C9 on ports out of range: 70000 and -1 are dialed as they are. *)
Lemma port_is_not_validated_witness :
  let dialer := {| Fastdialer := 7%N |} in
  registry refused !! "run-1" = Some dialer /\
  head (new_events fresh (isRDP refused "run-1" "acme.test" 70000 fresh).2) =
    Some (EvDial 7%N TODO "tcp" "acme.test:70000") /\
  head (new_events fresh (checkRDPAuth refused "run-1" "acme.test" (-1) fresh).2)
    = Some (EvDial 7%N TODO "tcp" "acme.test:-1") /\
  (isRDP refused "run-1" "acme.test" 70000 fresh).1 =
    Return (IsRDPResponse.zero, Err "connection refused").
Proof.
  intros dialer.
  assert (Hreg : registry refused !! "run-1" = Some dialer)
    by (vm_compute; reflexivity).
  split; [exact Hreg|].
  destruct (port_is_not_validated refused "run-1" "acme.test" 70000 fresh
              dialer Hreg) as (Hp & _ & _ & Hfail).
  destruct (port_is_not_validated refused "run-1" "acme.test" (-1) fresh
              dialer Hreg) as (_ & Ha & _ & _).
  split; [exact Hp|]. split; [exact Ha|].
  exact (proj1 (Hfail 0%N "connection refused" eq_refl)).
Defined.

(** C10 on three contexts: one that carries the run identity, one that
    carries nothing, one that carries an integer under the key. *)
Lemma run_identity_from_context_witness :
  let key := AnyString "executionId" in
  let ctx := WithTimeout (WithValue Background key (AnyString "run-1")) 30 in
  let bad := WithValue Background key (AnyInt 1) in
  (Value ctx key = AnyString "run-1" /\
   IsRDP acme ctx "acme.test" 3389 fresh =
     memoizedisRDP acme "run-1" "acme.test" 3389 fresh /\
   CheckRDPAuth acme ctx "acme.test" 3389 fresh =
     memoizedcheckRDPAuth acme "run-1" "acme.test" 3389 fresh) /\
  ((forall executionId, Value Background key <> AnyString executionId) /\
   IsRDP acme Background "acme.test" 3389 fresh =
     (Panic (TypeAssertionError AnyNil "string"), fresh) /\
   CheckRDPAuth acme Background "acme.test" 3389 fresh =
     (Panic (TypeAssertionError AnyNil "string"), fresh)) /\
  ((forall executionId, Value bad key <> AnyString executionId) /\
   IsRDP acme bad "acme.test" 3389 fresh =
     (Panic (TypeAssertionError (AnyInt 1) "string"), fresh) /\
   CheckRDPAuth acme bad "acme.test" 3389 fresh =
     (Panic (TypeAssertionError (AnyInt 1) "string"), fresh)).
Proof.
  intros key ctx bad.
  assert (Hnone : forall executionId,
             Value Background key <> AnyString executionId)
    by (intros executionId; cbn; discriminate).
  assert (Hbad : forall executionId, Value bad key <> AnyString executionId)
    by (intros executionId; vm_compute; discriminate).
  split; [|split].
  - split; [reflexivity|].
    exact (proj1 (run_identity_from_context acme ctx "acme.test" 3389 fresh)
             "run-1" eq_refl).
  - split; [exact Hnone|].
    exact (proj2 (run_identity_from_context acme Background "acme.test" 3389
                    fresh) Hnone).
  - split; [exact Hbad|].
    exact (proj2 (run_identity_from_context acme bad "acme.test" 3389 fresh)
             Hbad).
Defined.

(** ** Further properties of the probes *)

Section More.

Context {ServiceRDP : Type} (env : Env ServiceRDP).

Implicit Types (w : World ServiceRDP) (host executionId : string) (port : Z).

Lemma count_app p (l1 l2 : list Event) :
  count p (l1 ++ l2) = (count p l1 + count p l2)%nat.
Proof. induction l1 as [|e l1 IH]; cbn; [reflexivity|]. rewrite IH. lia. Qed.

Lemma isRDP_log executionId host port w :
  events (isRDP env executionId host port w).2 =
    events w ++ expected_log EvDetectRDP (registry env !! executionId)
                  (fun d => dial_answer env w d host port) host port.
Proof.
  destruct (registry env !! executionId) as [dialer|] eqn:Hreg; cbn.
  - destruct (dial_answer env w dialer host port) as [conn [|msg]] eqn:Hdial.
    + rewrite (isRDP_connected _ _ _ _ _ _ _ Hreg Hdial).
      apply events_after_probe.
    + now rewrite (isRDP_dial_failed _ _ _ _ _ _ _ _ Hreg Hdial).
  - rewrite (isRDP_unregistered _ _ host port w Hreg). cbn.
    now rewrite app_nil_r.
Qed.

Lemma checkRDPAuth_log executionId host port w :
  events (checkRDPAuth env executionId host port w).2 =
    events w ++ expected_log EvDetectRDPAuth (registry env !! executionId)
                  (fun d => dial_answer env w d host port) host port.
Proof.
  destruct (registry env !! executionId) as [dialer|] eqn:Hreg; cbn.
  - destruct (dial_answer env w dialer host port) as [conn [|msg]] eqn:Hdial.
    + rewrite (checkRDPAuth_connected _ _ _ _ _ _ _ Hreg Hdial).
      apply events_after_probe.
    + now rewrite (checkRDPAuth_dial_failed _ _ _ _ _ _ _ _ Hreg Hdial).
  - rewrite (checkRDPAuth_unregistered _ _ host port w Hreg). cbn.
    now rewrite app_nil_r.
Qed.

Lemma expected_log_balanced decode dialer answer host port :
  (forall c t, is_close (decode c t) = false) ->
  (forall c t, is_detect (decode c t) = true) ->
  let evs := expected_log decode dialer answer host port in
  count is_close evs = count is_detect evs /\
  (count is_close evs <= count is_dial evs)%nat.
Proof.
  intros Hc Hd. unfold expected_log.
  destruct dialer as [d|]; [|cbn; lia].
  destruct (answer d) as [conn [|msg]]; cbn; [|lia].
  rewrite Hc, Hd. cbn. lia.
Qed.

(** X1.  On a connection that was dialed, a decoder that returns without
    error and reports a positive has its payload handed to the caller as it
    is: [isRDP] returns {IsRDP: true, OS: the decoder's label} and
    [checkRDPAuth] returns {PluginInfo: the decoder's pointer, Auth: true},
    both with a nil error, also when the label is empty or the pointer
    nil. *)
Theorem positive_carries_decoder_payload executionId host port w dialer conn :
  registry env !! executionId = Some dialer ->
  dial_answer env w dialer host port = (conn, nil) ->
  (forall server,
      presence_answer env w dialer host port conn =
        Return (server, true, nil) ->
      (isRDP env executionId host port w).1 =
        Return (IsRDPResponse.mk true server, nil)) /\
  (forall pluginInfo,
      auth_answer env w dialer host port conn =
        Return (pluginInfo, true, nil) ->
      (checkRDPAuth env executionId host port w).1 =
        Return (CheckRDPAuthResponse.mk pluginInfo true, nil)).
Proof.
  intros Hreg Hdial. split.
  - intros server Hdec.
    now rewrite (isRDP_connected _ _ _ _ _ _ _ Hreg Hdial), Hdec.
  - intros pluginInfo Hdec.
    now rewrite (checkRDPAuth_connected _ _ _ _ _ _ _ Hreg Hdial), Hdec.
Qed.

(** X2.  Whatever the cause, a probe that returns a non-nil error returns
    the zero response with it; so a response whose flag is set always
    comes with a nil error. *)
Theorem error_excludes_payload executionId host port w :
  (forall resp msg w',
      isRDP env executionId host port w = (Return (resp, Err msg), w') ->
      resp = IsRDPResponse.zero) /\
  (forall resp msg w',
      checkRDPAuth env executionId host port w = (Return (resp, Err msg), w') ->
      resp = CheckRDPAuthResponse.zero) /\
  (forall resp err w',
      isRDP env executionId host port w = (Return (resp, err), w') ->
      IsRDPResponse.IsRDP resp = true -> err = nil) /\
  (forall resp err w',
      checkRDPAuth env executionId host port w = (Return (resp, err), w') ->
      CheckRDPAuthResponse.Auth resp = true -> err = nil).
Proof.
  assert (Hp : forall resp err w',
             isRDP env executionId host port w = (Return (resp, err), w') ->
             (err <> nil -> resp = IsRDPResponse.zero)).
  { intros resp err w' Hrun Herr.
    destruct (registry env !! executionId) as [dialer|] eqn:Hreg.
    - destruct (dial_answer env w dialer host port) as [conn [|m]] eqn:Hdial.
      + rewrite (isRDP_connected _ _ _ _ _ _ _ Hreg Hdial) in Hrun.
        destruct (presence_answer _ _ _ _ _ _)
          as [[[server flag] [|m]]|v]; try destruct flag;
          inversion Hrun; subst; congruence.
      + rewrite (isRDP_dial_failed _ _ _ _ _ _ _ _ Hreg Hdial) in Hrun.
        now inversion Hrun.
    - rewrite (isRDP_unregistered _ _ host port w Hreg) in Hrun.
      now inversion Hrun. }
  assert (Ha : forall resp err w',
             checkRDPAuth env executionId host port w
               = (Return (resp, err), w') ->
             (err <> nil -> resp = CheckRDPAuthResponse.zero)).
  { intros resp err w' Hrun Herr.
    destruct (registry env !! executionId) as [dialer|] eqn:Hreg.
    - destruct (dial_answer env w dialer host port) as [conn [|m]] eqn:Hdial.
      + rewrite (checkRDPAuth_connected _ _ _ _ _ _ _ Hreg Hdial) in Hrun.
        destruct (auth_answer _ _ _ _ _ _)
          as [[[info flag] [|m]]|v]; try destruct flag;
          inversion Hrun; subst; congruence.
      + rewrite (checkRDPAuth_dial_failed _ _ _ _ _ _ _ _ Hreg Hdial) in Hrun.
        now inversion Hrun.
    - rewrite (checkRDPAuth_unregistered _ _ host port w Hreg) in Hrun.
      now inversion Hrun. }
  split; [|split; [|split]].
  - intros resp msg w' Hrun. now apply (Hp _ _ _ Hrun).
  - intros resp msg w' Hrun. now apply (Ha _ _ _ Hrun).
  - intros resp [|msg] w' Hrun Hflag; [reflexivity|].
    rewrite (Hp _ _ _ Hrun) in Hflag by discriminate. discriminate Hflag.
  - intros resp [|msg] w' Hrun Hflag; [reflexivity|].
    rewrite (Ha _ _ _ Hrun) in Hflag by discriminate. discriminate Hflag.
Qed.

(** X3.  The calls a probe makes depend on the registry and on the answer
    of the dial only, never on what the decoder answers: no call without a
    dialer; the dial alone when it returns an error, whatever connection
    came with the error, which is then not closed; otherwise the dial, one
    call of the probe's own decoder with the timeout of five seconds, and
    one close, on the connection dialed.  The log before the probe is kept
    as it was. *)
Theorem probe_log_by_cases executionId host port w :
  events (isRDP env executionId host port w).2 =
    events w ++
    match registry env !! executionId with
    | None => []
    | Some dialer =>
        match dial_answer env w dialer host port with
        | (_, Err _) => [dial_event dialer host port]
        | (conn, nil) =>
            [dial_event dialer host port; EvDetectRDP conn 5000000000;
             EvClose conn]
        end
    end /\
  events (checkRDPAuth env executionId host port w).2 =
    events w ++
    match registry env !! executionId with
    | None => []
    | Some dialer =>
        match dial_answer env w dialer host port with
        | (_, Err _) => [dial_event dialer host port]
        | (conn, nil) =>
            [dial_event dialer host port; EvDetectRDPAuth conn 5000000000;
             EvClose conn]
        end
    end.
Proof.
  split; [rewrite isRDP_log|rewrite checkRDPAuth_log]; reflexivity.
Qed.

(** X4.  A panic of the decoder is not recovered: when the decoder
    panics on the connection that was dialed, the probe panics with the
    decoder's own value, and it does so after the deferred close of that
    connection has run, once. *)
Theorem decoder_panic_is_not_recovered executionId host port w dialer conn v :
  registry env !! executionId = Some dialer ->
  dial_answer env w dialer host port = (conn, nil) ->
  (presence_answer env w dialer host port conn = Panic v ->
   (isRDP env executionId host port w).1 = Panic v /\
   events (isRDP env executionId host port w).2 =
     events w ++ [dial_event dialer host port;
                  EvDetectRDP conn 5000000000; EvClose conn]) /\
  (auth_answer env w dialer host port conn = Panic v ->
   (checkRDPAuth env executionId host port w).1 = Panic v /\
   events (checkRDPAuth env executionId host port w).2 =
     events w ++ [dial_event dialer host port;
                  EvDetectRDPAuth conn 5000000000; EvClose conn]).
Proof.
  intros Hreg Hdial. split; intros Hdec.
  - rewrite (isRDP_connected _ _ _ _ _ _ _ Hreg Hdial), Hdec. cbn [fst snd].
    split; [reflexivity|apply events_after_probe].
  - rewrite (checkRDPAuth_connected _ _ _ _ _ _ _ Hreg Hdial), Hdec.
    cbn [fst snd]. split; [reflexivity|apply events_after_probe].
Qed.

(** X5.  The probes keep the log balanced: if, so far, there are as many
    closes as decoder calls and no more closes than dials, this still
    holds when a probe is over, whatever came out of it; so the balance
    carries over from one probe to the next. *)
Theorem log_stays_balanced executionId host port w :
  count is_close (events w) = count is_detect (events w) ->
  (count is_close (events w) <= count is_dial (events w))%nat ->
  let w1 := (isRDP env executionId host port w).2 in
  let w2 := (checkRDPAuth env executionId host port w).2 in
  (count is_close (events w1) = count is_detect (events w1) /\
   (count is_close (events w1) <= count is_dial (events w1))%nat) /\
  (count is_close (events w2) = count is_detect (events w2) /\
   (count is_close (events w2) <= count is_dial (events w2))%nat).
Proof.
  intros Heq Hle w1 w2. subst w1 w2.
  rewrite isRDP_log, checkRDPAuth_log, !count_app.
  destruct (expected_log_balanced EvDetectRDP (registry env !! executionId)
              (fun d => dial_answer env w d host port) host port)
    as [H1 H1']; [reflexivity..|].
  destruct (expected_log_balanced EvDetectRDPAuth (registry env !! executionId)
              (fun d => dial_answer env w d host port) host port)
    as [H2 H2']; [reflexivity..|].
  cbn zeta in *. lia.
Qed.

End More.

(** *** Addresses *)

Lemma has_colon_app a b : has_colon (a +:+ ":" +:+ b) = true.
Proof.
  induction a as [|c a IH]; [reflexivity|].
  change (bool_decide (c = ":"%char) || has_colon (a +:+ ":" +:+ b) = true).
  rewrite IH. apply orb_true_r.
Qed.

Lemma pretty_N_go_no_colon x s :
  has_colon s = false -> has_colon (pretty_N_go x s) = false.
Proof.
  revert s. induction (N.lt_wf_0 x) as [x _ IH]; intros s Hs.
  assert (x = 0 \/ 0 < x)%N as [->|Hpos] by lia.
  - now rewrite pretty_N_go_0.
  - rewrite pretty_N_go_step by assumption. apply IH.
    { now apply N.div_lt. }
    cbn. rewrite Hs, orb_false_r. apply bool_decide_eq_false.
    unfold pretty_N_char. now repeat case_match.
Qed.

Lemma pretty_Z_no_colon (z : Z) : has_colon (pretty z) = false.
Proof.
  assert (HN : forall n : N, has_colon (pretty n) = false).
  { intros n. unfold pretty, pretty_N. case_decide; [reflexivity|].
    now apply pretty_N_go_no_colon. }
  destruct z as [|p|p]; unfold pretty, pretty_Z; [reflexivity|apply HN|].
  cbn. apply HN.
Qed.

Lemma split_at_last_colon h h' p p' :
  has_colon p = false -> has_colon p' = false ->
  h +:+ String ":" p = h' +:+ String ":" p' -> h = h' /\ p = p'.
Proof.
  assert (Hnil : forall s, "" +:+ s = s) by reflexivity.
  assert (Hcons : forall c s s', String c s +:+ s' = String c (s +:+ s'))
    by reflexivity.
  assert (Hcolon : forall a b, has_colon (a +:+ String ":" b) = true)
    by exact has_colon_app.
  intros Hp Hp'. revert h'.
  induction h as [|c h IH]; intros [|c' h'] Heq;
    rewrite ?Hnil, ?Hcons in Heq.
  - injection Heq as ->. now split.
  - injection Heq as _ ->. now rewrite Hcolon in Hp.
  - injection Heq as _ <-. now rewrite Hcolon in Hp'.
  - injection Heq as -> Heq. destruct (IH _ Heq) as [-> ->]. now split.
Qed.

(** X6.  The address that a probe dials tells the host and the port apart:
    two probes dial the same address through the same dialer only when
    their hosts and their ports are the same, even for hosts that hold
    colons themselves. *)
Theorem dialed_address_determines_target dialer host port dialer' host' port' :
  dial_event dialer host port = dial_event dialer' host' port' ->
  Fastdialer dialer = Fastdialer dialer' /\ host = host' /\ port = port'.
Proof.
  unfold dial_event, fmt.Sprintf_host_port. intros [= Hd Haddr].
  split; [exact Hd|].
  change (host +:+ String ":" (pretty port)
          = host' +:+ String ":" (pretty port')) in Haddr.
  apply split_at_last_colon in Haddr as [Hh Hp];
    auto using pretty_Z_no_colon.
  split; [exact Hh|]. now apply (inj pretty).
Qed.

(** ** The further properties on the scenarios *)

(** X1 on a server without label and record: the flags are set, the
    payload is empty. *)
Lemma positive_carries_decoder_payload_witness :
  let dialer := {| Fastdialer := 7%N |} in
  registry unlabelled !! "run-1" = Some dialer /\
  dial_answer unlabelled fresh dialer "acme.test" 3389 = (1%N, nil) /\
  (isRDP unlabelled "run-1" "acme.test" 3389 fresh).1 =
    Return (IsRDPResponse.mk true "", nil) /\
  (checkRDPAuth unlabelled "run-1" "acme.test" 3389 fresh).1 =
    Return (CheckRDPAuthResponse.mk None true, nil).
Proof.
  intros dialer.
  assert (Hreg : registry unlabelled !! "run-1" = Some dialer)
    by (vm_compute; reflexivity).
  destruct (positive_carries_decoder_payload unlabelled "run-1" "acme.test"
              3389 fresh dialer 1%N Hreg eq_refl) as [Hp Ha].
  split; [exact Hreg|]. split; [reflexivity|]. split.
  - exact (Hp "" eq_refl).
  - exact (Ha None eq_refl).
Defined.

(** X2 on decoders that time out while handing back a populated answer. *)
Lemma error_excludes_payload_witness :
  let w' := (isRDP decoder_timeout "run-1" "acme.test" 3389 fresh).2 in
  let resp := (IsRDPResponse.mk false "") in
  isRDP decoder_timeout "run-1" "acme.test" 3389 fresh =
    (Return (resp, Err "i/o timeout"), w') /\
  resp = IsRDPResponse.zero.
Proof.
  intros w' resp.
  assert (Hrun : isRDP decoder_timeout "run-1" "acme.test" 3389 fresh =
                   (Return (resp, Err "i/o timeout"), w'))
    by (vm_compute; reflexivity).
  split; [exact Hrun|].
  exact (proj1 (error_excludes_payload decoder_timeout "run-1" "acme.test"
                  3389 fresh) resp "i/o timeout" w' Hrun).
Defined.

(** X4 on decoders that panic. *)
Lemma decoder_panic_is_not_recovered_witness :
  let dialer := {| Fastdialer := 7%N |} in
  registry decoder_panic !! "run-1" = Some dialer /\
  dial_answer decoder_panic fresh dialer "acme.test" 3389 = (1%N, nil) /\
  presence_answer decoder_panic fresh dialer "acme.test" 3389 1%N =
    Panic (ForeignPanic "index out of range") /\
  (isRDP decoder_panic "run-1" "acme.test" 3389 fresh).1 =
    Panic (ForeignPanic "index out of range") /\
  events (isRDP decoder_panic "run-1" "acme.test" 3389 fresh).2 =
    [EvDial 7%N TODO "tcp" "acme.test:3389";
     EvDetectRDP 1%N 5000000000; EvClose 1%N].
Proof.
  intros dialer.
  assert (Hreg : registry decoder_panic !! "run-1" = Some dialer)
    by (vm_compute; reflexivity).
  split; [exact Hreg|]. split; [reflexivity|]. split; [reflexivity|].
  exact (proj1 (decoder_panic_is_not_recovered decoder_panic "run-1"
                  "acme.test" 3389 fresh dialer 1%N
                  (ForeignPanic "index out of range") Hreg eq_refl) eq_refl).
Defined.

(** X5 on a fresh run, whose log is empty and so balanced. *)
Lemma log_stays_balanced_witness :
  let w1 := (isRDP decoder_panic "run-1" "acme.test" 3389 fresh).2 in
  count is_close (events fresh) = count is_detect (events fresh) /\
  (count is_close (events fresh) <= count is_dial (events fresh))%nat /\
  count is_close (events w1) = count is_detect (events w1) /\
  (count is_close (events w1) <= count is_dial (events w1))%nat.
Proof.
  intros w1.
  assert (H0 : count is_close (events fresh) = count is_detect (events fresh))
    by reflexivity.
  assert (H1 : (count is_close (events fresh)
                <= count is_dial (events fresh))%nat)
    by (cbn; lia).
  split; [exact H0|]. split; [exact H1|].
  exact (proj1 (log_stays_balanced decoder_panic "run-1" "acme.test" 3389
                  fresh H0 H1)).
Defined.

(** X6 on an IPv6 host, which holds colons. *)
Lemma dialed_address_determines_target_witness :
  let d := {| Fastdialer := 7%N |} in
  dial_event d "::1" 3389 = dial_event d "::1" 3389 /\
  Fastdialer d = Fastdialer d /\ "::1" = "::1" /\ 3389 = 3389.
Proof.
  intros d. split; [reflexivity|].
  exact (dialed_address_determines_target d "::1" 3389 d "::1" 3389 eq_refl).
Defined.

(** ** Probes one after the other *)

Section Sequence.

Context {ServiceRDP : Type} (env : Env ServiceRDP).

(** X7.  The probes themselves keep nothing between calls.  On a registered
    run, the presence probe followed by the auth probe on the same target
    dials twice: each probe starts with its own dial.  When the first dial
    succeeds, the first probe's decoder works on the connection of that
    dial, and this very connection is closed before the second probe
    dials; the second probe works on the connection of its own dial. *)
Theorem each_probe_dials_anew executionId host port (w : World ServiceRDP)
    dialer :
  registry env !! executionId = Some dialer ->
  let w1 := (isRDP env executionId host port w).2 in
  let w2 := (checkRDPAuth env executionId host port w1).2 in
  events w2 = events w ++ new_events w w1 ++ new_events w1 w2 /\
  new_events w w1 =
    dial_event dialer host port ::
      match dial_answer env w dialer host port with
      | (conn, nil) => [EvDetectRDP conn 5000000000; EvClose conn]
      | (_, Err _) => []
      end /\
  new_events w1 w2 =
    dial_event dialer host port ::
      match dial_answer env w1 dialer host port with
      | (conn, nil) => [EvDetectRDPAuth conn 5000000000; EvClose conn]
      | (_, Err _) => []
      end /\
  head (new_events w w1) = Some (dial_event dialer host port) /\
  head (new_events w1 w2) = Some (dial_event dialer host port) /\
  count is_close (new_events w w1) = count is_detect (new_events w w1) /\
  count is_dial (new_events w w1 ++ new_events w1 w2) = 2%nat.
Proof.
  intros Hreg w1 w2.
  assert (E1 := isRDP_log env executionId host port w).
  assert (E2 := checkRDPAuth_log env executionId host port w1).
  fold w1 in E1. fold w2 in E2. rewrite Hreg in E1, E2.
  rewrite (new_events_app _ _ _ E1), (new_events_app _ _ _ E2).
  split; [rewrite E2, E1; now rewrite <- app_assoc|].
  rewrite count_app. unfold expected_log.
  destruct (dial_answer env w dialer host port) as [c1 [|m1]];
    destruct (dial_answer env w1 dialer host port) as [c2 [|m2]];
    repeat split; reflexivity.
Qed.

End Sequence.

(** X7 on a host that accepts the first connection only: the second probe
    dials again, and is refused. *)
Lemma each_probe_dials_anew_witness :
  let dialer := {| Fastdialer := 7%N |} in
  let w1 := (isRDP flaky "run-1" "acme.test" 3389 fresh).2 in
  let w2 := (checkRDPAuth flaky "run-1" "acme.test" 3389 w1).2 in
  registry flaky !! "run-1" = Some dialer /\
  (checkRDPAuth flaky "run-1" "acme.test" 3389 w1).1 =
    Return (CheckRDPAuthResponse.zero, Err "connection refused") /\
  events w2 =
    [EvDial 7%N TODO "tcp" "acme.test:3389"; EvDetectRDP 1%N 5000000000;
     EvClose 1%N; EvDial 7%N TODO "tcp" "acme.test:3389"] /\
  events w2 = events fresh ++ new_events fresh w1 ++ new_events w1 w2 /\
  new_events fresh w1 =
    dial_event dialer "acme.test" 3389 ::
      match dial_answer flaky fresh dialer "acme.test" 3389 with
      | (conn, nil) => [EvDetectRDP conn 5000000000; EvClose conn]
      | (_, Err _) => []
      end.
Proof.
  intros dialer w1 w2.
  assert (Hreg : registry flaky !! "run-1" = Some dialer)
    by (vm_compute; reflexivity).
  destruct (each_probe_dials_anew flaky "run-1" "acme.test" 3389 fresh dialer
              Hreg) as (Hall & Hfirst & _).
  split; [exact Hreg|]. split; [vm_compute; reflexivity|].
  split; [vm_compute; reflexivity|].
  split; [exact Hall|exact Hfirst].
Defined.
